(** * GenerateAI: the model gateway of [llms/llms.py]

    A shallow embedding of the five functions of [src/llms/llms.py]
    ([get_mistral], [get_gpt4all], [get_ollama], [get_prompt], [get_answer])
    and of the parts of Python and of the wrapped libraries they rest on.

    The functions only forward arguments to third-party constructors, so the
    constructors are parameters of the embedding (Section [Gateway]); what a
    constructor or a handle does with its arguments is modelled separately,
    from the specification, and marked as such. *)

From stdpp Require Import base option list strings gmap.
From Stdlib Require Import ZArith QArith Ascii.

Local Open Scope string_scope.
Local Open Scope Z_scope.

(** ** Python: exceptions, outcomes, the ambient world *)

(** The errors a call of the gateway can end with: Python's own
    ([SyntaxError], [TypeError], [KeyError]) and the specification's taxonomy
    (section 7). *)
Inductive exn : Type :=
| SyntaxError (msg : string)
| TypeError (msg : string)
| KeyError (keys : list string)
| TemplateError (msg : string)
| ModelLoadError (path : string)
| ServiceUnavailableError
| ModelNotFoundError (name : string)
| GenerationError (msg : string).

Inductive outcome (A : Type) : Type :=
| Ok (a : A)
| Raise (e : exn).
Arguments Ok {A} a.
Arguments Raise {A} e.

#[global] Instance outcome_ret : MRet outcome := λ A a, Ok a.
#[global] Instance outcome_bind : MBind outcome :=
  λ A B f m, match m with Ok a => f a | Raise e => Raise e end.

(** What a call can observe or change outside its arguments: the model files
    on disk (a path maps to [true] when the file is an intact model), the
    names the local inference service knows ([None]: the service is not
    reachable), and the text written to standard output so far. *)
Record World : Type := {
  files : gmap string bool;
  service : option (gset string);
  stdout : list string
}.

(** A call that may fail and may change the world. *)
Definition M (A : Type) : Type := World → outcome A * World.

#[global] Instance M_ret : MRet M := λ A a w, (Ok a, w).
#[global] Instance M_bind : MBind M :=
  λ A B f m w, match m w with
               | (Ok a, w') => f a w'
               | (Raise e, w') => (Raise e, w')
               end.

Definition raise {A : Type} (e : exn) : M A := λ w, (Raise e, w).

(** A Python value as [get_answer] meets it: a string, or a [Dict[str, str]]. *)
Inductive pyval : Type :=
| PStr (s : string)
| PDict (d : gmap string string).

(** ** Python: call sites *)

(** The arguments written at a call: positional ones, then [name=value]
    pairs in the order of the source text. *)
Record call_site (A : Type) : Type := {
  positional : list A;
  keywords : list (string * A)
}.
Arguments positional {A} _.
Arguments keywords {A} _.

(** The first keyword that is written again later in the same call. *)
Fixpoint keyword_repeated {A : Type} (kws : list (string * A)) : option string :=
  match kws with
  | [] => None
  | (k, _) :: rest =>
      if bool_decide (k ∈ rest.*1) then Some k else keyword_repeated rest
  end.

(** The values written for keyword [k], in order. *)
Definition keyword_values {A : Type} (k : string) (kws : list (string * A)) : list A :=
  (filter (λ kw, kw.1 = k) kws).*2.

(** Python refuses a call that writes a keyword twice
    ([SyntaxError: keyword argument repeated]); the callee never runs.
    CPython reports it when it compiles the module; the embedding keeps the
    error at the call that contains it, so that the other functions of the
    module can be read as they are written. *)
Definition py_call {A B : Type} (f : call_site A → M B) (site : call_site A) : M B :=
  match keyword_repeated (keywords site) with
  | Some k => raise (SyntaxError ("keyword argument repeated: " +:+ k))
  | None => f site
  end.

(** Binding the arguments of a call to a function declared with no
    parameter, [def f():]: any argument is a [TypeError]. *)
Definition apply_nullary {A B : Type} (name : string) (body : M B)
    (args : list A) (kwargs : list (string * A)) : M B :=
  match args, kwargs with
  | [], [] => body
  | _ :: _, _ => raise (TypeError (name +:+ "() takes 0 positional arguments"))
  | [], (k, _) :: _ =>
      raise (TypeError (name +:+ "() got an unexpected keyword argument " +:+ k))
  end.

(** ** ctransformers: configuration objects *)

(** [ctransformers.Config], with the four fields [get_mistral] sets. The two
    float literals are kept as the decimal fractions the source writes; no
    arithmetic is done on them. *)
Record Config : Type := {
  temperature : Q;
  repetition_penalty : Q;
  max_new_tokens : Z;
  context_length : Z
}.

(** [ctransformers.AutoConfig(config, model_type=None)]. *)
Record AutoConfig : Type := {
  config : Config;
  model_type : option string
}.

(** The values [get_mistral] writes as arguments. *)
Inductive arg : Type :=
| AStr (s : string)
| AAutoConfig (c : AutoConfig)
| AConfig (c : Config).

(** ** langchain: callbacks and constructor arguments *)

Inductive CallbackHandler : Type :=
| StreamingStdOutCallbackHandler.

(** [CallbackManager(handlers)]. *)
Record CallbackManager : Type := {
  handlers : list CallbackHandler
}.

Module GPT4All.
(** The keyword arguments of [GPT4All(model=, backend=, callbacks=)]. *)
Record kwargs : Type := {
  model : string;
  backend : string;
  callbacks : option (list CallbackHandler)
}.
End GPT4All.

Module Ollama.
(** The keyword arguments of [Ollama(model=, callback_manager=)]. *)
Record kwargs : Type := {
  model : string;
  callback_manager : option CallbackManager
}.
End Ollama.

(** ** llms.py: the model factories and the query executor *)

Section Gateway.
(** The handles the three backends return, and their constructors. *)
Context {Mistral Gpt Oll : Type}.
Variable from_pretrained : call_site arg → M Mistral.
Variable GPT4All_new : GPT4All.kwargs → M Gpt.
Variable Ollama_new : Ollama.kwargs → M Oll.

(** [conf] of [get_mistral] (lines 20-27). *)
Definition get_mistral_conf : AutoConfig :=
  {| config := {| temperature := 8 # 10;
                  repetition_penalty := 12 # 10;
                  max_new_tokens := 1024;
                  context_length := 2048 |};
     model_type := None |}.

(** The call [AutoModelForCausalLM.from_pretrained(...)] as written
    (lines 29-34). *)
Definition get_mistral_site : call_site arg :=
  let conf := get_mistral_conf in
  {| positional := [AStr "models/mistral"];
     keywords := [("config", AAutoConfig conf);
                  ("model_type", AStr "mistral");
                  ("config", AAutoConfig conf)] |}.

Definition get_mistral : M Mistral :=
  llm ← py_call from_pretrained get_mistral_site;
  mret llm.

(** A call of [get_mistral] with positional and keyword arguments. The
    function is declared with no parameter. The repeated keyword of its
    body is reported when CPython compiles [llms.py], before any call can
    bind its arguments, so it comes first. *)
Definition get_mistral_applied (args : list arg) (kwargs : list (string * arg))
  : M Mistral :=
  match keyword_repeated (keywords get_mistral_site) with
  | Some k => raise (SyntaxError ("keyword argument repeated: " +:+ k))
  | None => apply_nullary "get_mistral" get_mistral args kwargs
  end.

Definition get_gpt4all (model_pth : string) (backend : string) (callback : bool)
  : M Gpt :=
  let callbacks := None in
  let callbacks :=
    if callback then Some [StreamingStdOutCallbackHandler] else callbacks in
  llm ← GPT4All_new {| GPT4All.model := model_pth;
                       GPT4All.backend := backend;
                       GPT4All.callbacks := callbacks |};
  mret llm.

Definition get_ollama (model_name : string) (callback : bool) : M Oll :=
  let callback_manager := None in
  let callback_manager :=
    if callback
    then Some {| handlers := [StreamingStdOutCallbackHandler] |}
    else callback_manager in
  Ollama_new {| Ollama.model := model_name;
                Ollama.callback_manager := callback_manager |}.
End Gateway.

(** The defaults of the signatures: [backend='gptj', callback=False] and
    [model_name='llama2', callback=False]. *)
Definition get_gpt4all_backend_default : string := "gptj".
Definition get_gpt4all_callback_default : bool := false.
Definition get_ollama_model_name_default : string := "llama2".
Definition get_ollama_callback_default : bool := false.

(** [get_answer(llm, question)]: [llm] is any callable. *)
Definition get_answer (llm : pyval → M pyval) (question : string) : M pyval :=
  llm (PDict {[ "question" := question ]}).

(** ** langchain: prompt templates *)

(** A template text read as Python's format strings read it: literal text
    and named replacement fields. *)
Inductive piece : Type :=
| Lit (s : string)
| Slot (name : string).

Inductive scan_mode : Type :=
| InText (acc : string)
| InField (acc : string).

Definition lit (acc : string) : list piece :=
  match acc with
  | EmptyString => []
  | _ => [Lit acc]
  end.

Definition snoc_char (acc : string) (c : Ascii.ascii) : string :=
  acc +:+ String c EmptyString.

(** The scanner of a template: [{{] and [}}] stand for a brace, [{name}] is
    a field. A lone [}], a [{] that is never closed, a [{] inside a field
    and an empty field name are malformed ([None]). Only plain field names
    are read: the text between the braces is taken whole as the name, and a
    conversion, a format specification, an attribute or an index after the
    name, which Python's formatter splits off, is not. *)
Fixpoint scan (s : string) (m : scan_mode) : option (list piece) :=
  match s, m with
  | EmptyString, InText acc => Some (lit acc)
  | EmptyString, InField _ => None
  | String c rest, InText acc =>
      if Ascii.eqb c "{"%char then
        match rest with
        | String c' rest' =>
            if Ascii.eqb c' "{"%char then scan rest' (InText (snoc_char acc "{"%char))
            else app (lit acc) <$> scan rest (InField EmptyString)
        | EmptyString => None
        end
      else if Ascii.eqb c "}"%char then
        match rest with
        | String c' rest' =>
            if Ascii.eqb c' "}"%char then scan rest' (InText (snoc_char acc "}"%char))
            else None
        | EmptyString => None
        end
      else scan rest (InText (snoc_char acc c))
  | String c rest, InField acc =>
      if Ascii.eqb c "}"%char then
        match acc with
        | EmptyString => None
        | _ => cons (Slot acc) <$> scan rest (InText EmptyString)
        end
      else if Ascii.eqb c "{"%char then None
      else scan rest (InField (snoc_char acc c))
  end.

Definition parse (template : string) : option (list piece) :=
  scan template (InText EmptyString).

(** The field names a template refers to, in order, with repetitions. *)
Fixpoint slots (ps : list piece) : list string :=
  match ps with
  | [] => []
  | Lit _ :: rest => slots rest
  | Slot n :: rest => n :: slots rest
  end.

(** Replacing every field by its value; a field with no value is a
    [KeyError]. *)
Fixpoint render (kwargs : gmap string string) (ps : list piece) : outcome string :=
  match ps with
  | [] => Ok EmptyString
  | Lit s :: rest => text ← render kwargs rest; mret (s +:+ text)
  | Slot n :: rest =>
      match kwargs !! n with
      | Some v => text ← render kwargs rest; mret (v +:+ text)
      | None => Raise (KeyError [n])
      end
  end.

(** [StrictFormatter.check_unused_args]: a value no field uses is a
    [KeyError] too. *)
Definition check_unused_args (used : list string) (kwargs : gmap string string)
  : outcome unit :=
  let extra := filter (λ k, k ∉ used) (elements (dom kwargs)) in
  match extra with
  | [] => Ok tt
  | _ => Raise (KeyError extra)
  end.

(** [formatter.format(template, **kwargs)]. *)
Definition vformat (template : string) (kwargs : gmap string string)
  : outcome string :=
  match parse template with
  | None => Raise (TemplateError "malformed format string")
  | Some ps =>
      text ← render kwargs ps;
      _ ← check_unused_args (slots ps) kwargs;
      mret text
  end.

Record PromptTemplate : Type := {
  template : string;
  input_variables : list string;
  partial_variables : gmap string string
}.

(** [check_valid_template]: the template is formatted once with a dummy
    value for every declared variable; a [KeyError] of that run is reported
    as an invalid prompt schema. *)
Definition check_valid_template (template : string) (all_inputs : list string)
  : outcome unit :=
  let dummy_inputs : gmap string string :=
    list_to_map ((λ v, (v, "foo")) <$> all_inputs) in
  match vformat template dummy_inputs with
  | Ok _ => Ok tt
  | Raise (KeyError _) =>
      Raise (TemplateError "Invalid prompt schema; check for mismatched or missing input parameters.")
  | Raise e => Raise e
  end.

(** Modelled from the spec: [PromptTemplate] is langchain's class, which
    [llms.py] imports and [src/] does not hold. Sections 3 and 4.2 describe
    it as a template string with named slots whose text "must reference
    exactly" the declared slots, and which "fails with TemplateError if
    templateText does not declare both slots"; that is the validation
    langchain runs when the object is built, written here with its strict
    formatter. *)
Definition PromptTemplate_validated (p : PromptTemplate) : outcome PromptTemplate :=
  _ ← check_valid_template (template p)
        (input_variables p ++ elements (dom (partial_variables p)));
  mret p.

Definition PromptTemplate_new (template : string) (input_variables : list string)
  : outcome PromptTemplate :=
  PromptTemplate_validated
    {| template := template;
       input_variables := input_variables;
       partial_variables := ∅ |}.

(** Modelled from the spec: [PromptTemplate.partial], absent from [src/].
    Section 3: a slot "is bound at construction time (partial application)",
    the others stay "supplied per call". The bound names leave
    [input_variables] and join [partial_variables]; the result is built, and
    so validated, as a new template. *)
Definition partial (p : PromptTemplate) (kwargs : gmap string string)
  : outcome PromptTemplate :=
  PromptTemplate_validated
    {| template := template p;
       input_variables :=
         filter (λ v, v ∉ elements (dom kwargs)) (input_variables p);
       partial_variables := kwargs ∪ partial_variables p |}.

(** [get_prompt(template, context)] of [llms.py]. *)
Definition get_prompt (template : string) (context : string)
  : outcome PromptTemplate :=
  prompt ← PromptTemplate_new template ["question"; "context"];
  prompt ← partial prompt {[ "context" := context ]};
  mret prompt.

(** What validation decides: the template parses, and the fields it names
    are exactly the declared variables. *)
Definition well_declared (template : string) (vars : list string) : Prop :=
  ∃ ps, parse template = Some ps ∧ ∀ n, n ∈ slots ps ↔ n ∈ vars.

(** Whether a template text declares both slots of the gateway's prompt: it
    parses and names [question] and [context]. *)
Definition declares_both (template : string) : bool :=
  match parse template with
  | Some ps =>
      bool_decide ("question" ∈ slots ps) && bool_decide ("context" ∈ slots ps)
  | None => false
  end.

(** ** The backends behind the handles *)

(** Modelled from the spec: the constructor of langchain's [GPT4All], absent
    from [src/]. Section 4.1: createFileBackedModel "loads a model from an
    explicit file path" and "fails with ModelLoadError on missing/corrupt
    file". The handle keeps the arguments it was built with. *)
Definition GPT4All_load (kw : GPT4All.kwargs) : M GPT4All.kwargs :=
  λ w, match files w !! GPT4All.model kw with
       | Some true => (Ok kw, w)
       | Some false | None => (Raise (ModelLoadError (GPT4All.model kw)), w)
       end.

(** Modelled from the spec: the constructor of langchain's [Ollama], absent
    from [src/]. Section 4.1: createNamedServiceModel "fails with
    ServiceUnavailableError if the service cannot be reached,
    ModelNotFoundError if the name is unknown to the service". *)
Definition Ollama_connect (kw : Ollama.kwargs) : M Ollama.kwargs :=
  λ w, match service w with
       | None => (Raise ServiceUnavailableError, w)
       | Some known =>
           if bool_decide (Ollama.model kw ∈ known)
           then (Ok kw, w)
           else (Raise (ModelNotFoundError (Ollama.model kw)), w)
       end.

(** Whether the world lets a handle be built: an intact model file at the
    path, a reachable service that knows the name. *)
Definition loadable (w : World) (path : string) : bool :=
  bool_decide (files w !! path = Some true).

Definition served (w : World) (name : string) : bool :=
  match service w with
  | Some known => bool_decide (name ∈ known)
  | None => false
  end.

(** The two factories of [llms.py] over these constructors. *)
Definition createFileBackedModel : string → string → bool → M GPT4All.kwargs :=
  get_gpt4all GPT4All_load.
Definition createNamedServiceModel : string → bool → M Ollama.kwargs :=
  get_ollama Ollama_connect.

(** What a backend produces for a prompt: the tokens, in order, and whether
    the run breaks off after them. *)
Record generation : Type := {
  produced : list string;
  failure : option string
}.

(** [StreamingStdOutCallbackHandler.on_llm_new_token]: the token is written
    to standard output. *)
Definition on_llm_new_token (h : CallbackHandler) (token : string) : M unit :=
  λ w, (Ok tt, {| files := files w;
                  service := service w;
                  stdout := stdout w ++ [token] |}).

Fixpoint notify (sink : list CallbackHandler) (token : string) : M unit :=
  match sink with
  | [] => mret tt
  | h :: rest => _ ← on_llm_new_token h token; notify rest token
  end.

(** Modelled from the spec: the generation loop of a handle, absent from
    [src/]. Section 4.1: with streaming "output tokens are emitted
    incrementally to a caller-visible sink as they are produced, in addition
    to being accumulated into the final result"; without, "only the final
    accumulated text is returned". *)
Fixpoint accumulate (sink : list CallbackHandler) (tokens : list string)
    (text : string) : M string :=
  match tokens with
  | [] => mret text
  | token :: rest =>
      _ ← notify sink token;
      accumulate sink rest (text +:+ token)
  end.

(** Modelled from the spec: [generate(prompt_text) -> text] of a handle
    (section 3), absent from [src/]; section 7: generation "either completes
    and returns full text, or fails with no result". *)
Definition run_generation (sink : list CallbackHandler) (g : generation)
  : M string :=
  text ← accumulate sink (produced g) EmptyString;
  match failure g with
  | Some msg => raise (GenerationError msg)
  | None => mret text
  end.

Section Generation.
(** The text-generation backends themselves are opaque: what the model
    file at a path, loaded as a backend kind, produces for a prompt, and
    what the service produces for a model name and a prompt. *)
Variable file_model : string → string → string → generation.
Variable service_model : string → string → generation.

Definition GPT4All_generate (h : GPT4All.kwargs) (prompt : string) : M string :=
  run_generation (default [] (GPT4All.callbacks h))
    (file_model (GPT4All.model h) (GPT4All.backend h) prompt).

Definition Ollama_generate (h : Ollama.kwargs) (prompt : string) : M string :=
  run_generation (default [] (handlers <$> Ollama.callback_manager h))
    (service_model (Ollama.model h) prompt).

(** Building a handle with the streaming flag, then generating once. *)
Definition ask_file_backed (path kind : string) (streaming : bool)
    (question : string) : M string :=
  h ← createFileBackedModel path kind streaming;
  GPT4All_generate h question.

Definition ask_named_service (name : string) (streaming : bool)
    (question : string) : M string :=
  h ← createNamedServiceModel name streaming;
  Ollama_generate h question.
End Generation.

(** A handle that returns the mapping it was called with, as a chain that
    echoes its inputs does. *)
Definition echo : pyval → M pyval := λ v, mret v.

(** A constructor that returns the call it received. *)
Definition received {A : Type} : call_site A → M (call_site A) := λ site, mret site.

Definition empty_world : World :=
  {| files := ∅; service := None; stdout := [] |}.

(** * Properties *)

(** ** The scanner and the formatter on concrete templates *)

Example parse_paris :
  parse "Q: {question} CTX: {context}"
  = Some [Lit "Q: "; Slot "question"; Lit " CTX: "; Slot "context"].
Proof. reflexivity. Qed.

Example parse_doubled_braces :
  parse "{{question}} {context}"
  = Some [Lit "{question} "; Slot "context"].
Proof. reflexivity. Qed.

Example parse_lone_brace : parse "Q: {question" = None.
Proof. reflexivity. Qed.

Example vformat_missing_value :
  vformat "{question} {context}" {[ "question" := "q" ]}
  = Raise (KeyError ["context"]).
Proof. vm_compute. reflexivity. Qed.

Example vformat_unused_value :
  vformat "{question}" ({[ "question" := "q" ]} ∪ {[ "context" := "c" ]})
  = Raise (KeyError ["context"]).
Proof. vm_compute. reflexivity. Qed.

(** ** get_mistral *)

Lemma bind_ret_r {A : Type} (m : M A) (w : World) :
  (a ← m; mret a) w = m w.
Proof.
  unfold mbind, M_bind, mret, M_ret.
  destruct (m w) as [[a|e] w']; reflexivity.
Qed.

Lemma py_call_repeated {A B : Type} (f : call_site A → M B) site k w :
  keyword_repeated (keywords site) = Some k →
  py_call f site w = (Raise (SyntaxError ("keyword argument repeated: " +:+ k)), w).
Proof. intros Hk. unfold py_call. rewrite Hk. reflexivity. Qed.

Lemma get_mistral_site_repeats_config :
  keyword_repeated (keywords get_mistral_site) = Some "config".
Proof. reflexivity. Qed.

Lemma get_mistral_raises {Mistral : Type}
    (from_pretrained : call_site arg → M Mistral) (w : World) :
  get_mistral from_pretrained w
  = (Raise (SyntaxError "keyword argument repeated: config"), w).
Proof.
  unfold get_mistral. rewrite bind_ret_r.
  apply (py_call_repeated from_pretrained get_mistral_site "config" w).
  exact get_mistral_site_repeats_config.
Qed.

(** C8: the construction call of [get_mistral] writes the keyword [config]
    twice, with the same configuration object both times, so the
    configuration is not passed exactly once; the call is ill-formed, and
    whatever the backend constructor does, [get_mistral] ends with the
    syntax error and never returns a handle. *)
Theorem get_mistral_passes_config_twice :
  keyword_values "config" (keywords get_mistral_site)
  = [AAutoConfig get_mistral_conf; AAutoConfig get_mistral_conf]
  ∧ keyword_repeated (keywords get_mistral_site) = Some "config"
  ∧ ∀ (Mistral : Type) (from_pretrained : call_site arg → M Mistral) (w : World),
      get_mistral from_pretrained w
      = (Raise (SyntaxError "keyword argument repeated: config"), w)
      ∧ ∀ (h : Mistral) (w' : World), get_mistral from_pretrained w ≠ (Ok h, w').
Proof.
  split; [reflexivity|]. split; [reflexivity|].
  intros Mistral from_pretrained w. split.
  - apply get_mistral_raises.
  - intros h w'. rewrite get_mistral_raises. discriminate.
Qed.

(** C7, as stated, fails: a caller's configuration handed to [get_mistral]
    never reaches the construction call. With a constructor that returns the
    call it received, a call of [get_mistral] with a configuration of the
    caller's does not yield a construction call holding that configuration. *)
Lemma get_mistral_rejects_caller_config :
  ¬ (∀ (cfg : Config) (w : World),
       ∃ (site : call_site arg) (w' : World),
         get_mistral_applied received [AConfig cfg] [] w = (Ok site, w')
         ∧ keyword_values "config" (keywords site)
           = [AAutoConfig {| config := cfg; model_type := None |}]).
Proof.
  intros H.
  destruct (H {| temperature := 1 # 10; repetition_penalty := 1;
                 max_new_tokens := 16; context_length := 64 |} empty_world)
    as (site & w' & Hcall & _).
  discriminate Hcall.
Qed.

(** C7, amended: [get_mistral] takes no configuration from its caller; the
    configuration written at its construction call is the fixed one
    (temperature 0.8, repetition penalty 1.2, 1024 new tokens, context
    length 2048), and the artifact path and the backend-kind tag are fixed
    too. *)
Theorem get_mistral_configuration_is_fixed :
  positional get_mistral_site = [AStr "models/mistral"]
  ∧ keyword_values "model_type" (keywords get_mistral_site) = [AStr "mistral"]
  ∧ Forall (λ v, v = AAutoConfig {| config := {| temperature := 8 # 10;
                                                 repetition_penalty := 12 # 10;
                                                 max_new_tokens := 1024;
                                                 context_length := 2048 |};
                                    model_type := None |})
       (keyword_values "config" (keywords get_mistral_site)).
Proof.
  split; [reflexivity|]. split; [reflexivity|].
  repeat constructor.
Qed.

(** ** get_gpt4all and get_ollama: the callback flag *)

(** C10: whatever the constructors are, with the flag false [get_gpt4all]
    hands [GPT4All] [callbacks=None] and [get_ollama] hands [Ollama]
    [callback_manager=None]; with the flag true the first hands over a list
    of exactly one [StreamingStdOutCallbackHandler] and the second a
    [CallbackManager] over exactly one. The flag has no third value, so the
    factories can set up no other sink. *)
Theorem callback_flag_selects_the_sink :
  ∀ (Gpt Oll : Type) (GPT4All_new : GPT4All.kwargs → M Gpt)
    (Ollama_new : Ollama.kwargs → M Oll)
    (model_pth backend model_name : string) (callback : bool) (w : World),
    get_gpt4all GPT4All_new model_pth backend callback w
    = GPT4All_new
        {| GPT4All.model := model_pth;
           GPT4All.backend := backend;
           GPT4All.callbacks :=
             match callback with
             | false => None
             | true => Some [StreamingStdOutCallbackHandler]
             end |} w
    ∧ get_ollama Ollama_new model_name callback w
      = Ollama_new
          {| Ollama.model := model_name;
             Ollama.callback_manager :=
               match callback with
               | false => None
               | true => Some {| handlers := [StreamingStdOutCallbackHandler] |}
               end |} w.
Proof.
  intros Gpt Oll GPT4All_new Ollama_new model_pth backend model_name callback w.
  split.
  - unfold get_gpt4all. rewrite bind_ret_r. destruct callback; reflexivity.
  - unfold get_ollama. destruct callback; reflexivity.
Qed.

(** ** get_answer *)

Lemma singleton_question_is_not_answer (q text : string) :
  ({[ "question" := q ]} : gmap string string) ≠ {[ "answer" := text ]}.
Proof.
  intros H.
  assert (Hq : ({[ "question" := q ]} : gmap string string) !! "question"
               = ({[ "answer" := text ]} : gmap string string) !! "question")
    by (rewrite H; reflexivity).
  rewrite lookup_singleton_eq in Hq.
  rewrite lookup_singleton_ne in Hq by discriminate.
  discriminate Hq.
Qed.

Lemma returned_dict_inj (d1 d2 : gmap string string) (w1 w2 : World) :
  (Ok (PDict d1), w1) = (Ok (PDict d2), w2) → d1 = d2.
Proof.
  intros H.
  exact (f_equal (λ r : outcome pyval * World,
                    match r.1 with Ok (PDict d) => d | _ => d1 end) H).
Qed.

(** C1, as stated, fails: the result of [get_answer] is whatever the handle
    returns. A handle that returns the mapping it was called with makes
    [get_answer] return a record whose key is [question], not [answer]. *)
Lemma get_answer_result_need_not_have_key_answer :
  ¬ (∀ (llm : pyval → M pyval) (q : string) (w : World),
       ∃ (text : string) (w' : World),
         get_answer llm q w = (Ok (PDict {[ "answer" := text ]}), w')).
Proof.
  intros H.
  destruct (H echo "what is paris?" empty_world) as (text & w' & Hans).
  apply returned_dict_inj in Hans.
  exact (singleton_question_is_not_answer _ _ Hans).
Qed.

(** C1, amended: [get_answer] calls the handle with the one-entry mapping
    from [question] to the question and returns the handle's outcome
    unchanged, result and effects; so its result is a record whose single
    key is [answer] exactly when the handle returns such a record for that
    mapping. *)
Theorem get_answer_returns_what_the_handle_returns :
  ∀ (llm : pyval → M pyval) (q : string) (w : World),
    get_answer llm q w = llm (PDict {[ "question" := q ]}) w
    ∧ dom ({[ "question" := q ]} : gmap string string) = {[ "question" ]}
    ∧ ((∃ text w', get_answer llm q w = (Ok (PDict {[ "answer" := text ]}), w'))
       ↔ (∃ text w', llm (PDict {[ "question" := q ]}) w
                     = (Ok (PDict {[ "answer" := text ]}), w'))).
Proof.
  intros llm q w. split; [reflexivity|]. split.
  - apply dom_singleton_L.
  - reflexivity.
Qed.

(** ** Prompt templates: formatting and validation *)

Lemma render_cases (kwargs : gmap string string) (ps : list piece) :
  (∃ text, render kwargs ps = Ok text
           ∧ ∀ n, n ∈ slots ps → is_Some (kwargs !! n))
  ∨ (∃ n, render kwargs ps = Raise (KeyError [n])
          ∧ n ∈ slots ps ∧ kwargs !! n = None).
Proof.
  induction ps as [|[s|n] rest IH]; simpl.
  - left. eexists. split; [reflexivity|]. intros n Hn. inversion Hn.
  - destruct IH as [(text & -> & Hall)|(n & -> & Hin & Hnone)].
    + left. eexists. split; [reflexivity|]. exact Hall.
    + right. exists n. auto.
  - destruct (kwargs !! n) as [v|] eqn:Hv.
    + destruct IH as [(text & -> & Hall)|(m & -> & Hin & Hnone)].
      * left. eexists. split; [reflexivity|].
        intros m Hm. apply elem_of_cons in Hm as [->|Hm]; [eauto|auto].
      * right. exists m. split; [reflexivity|]. split; [|exact Hnone].
        apply elem_of_cons. auto.
    + right. exists n. split; [reflexivity|]. split; [|exact Hv].
      apply elem_of_cons. auto.
Qed.

Lemma check_unused_args_cases (used : list string) (kwargs : gmap string string) :
  (check_unused_args used kwargs = Ok tt ∧ ∀ k, k ∈ dom kwargs → k ∈ used)
  ∨ (∃ ks k, check_unused_args used kwargs = Raise (KeyError ks)
             ∧ k ∈ dom kwargs ∧ k ∉ used).
Proof.
  unfold check_unused_args.
  destruct (filter (λ k, k ∉ used) (elements (dom kwargs))) as [|k ks] eqn:Hf.
  - left. split; [reflexivity|]. intros k Hk.
    destruct (decide (k ∈ used)) as [|Hno]; [assumption|].
    exfalso. eapply (filter_nil_not_elem_of _ _ k Hf Hno).
    apply elem_of_elements. exact Hk.
  - right. exists (k :: ks), k. split; [reflexivity|].
    assert (Hk : k ∈ filter (λ k, k ∉ used) (elements (dom kwargs)))
      by (rewrite Hf; apply elem_of_cons; auto).
    apply list_elem_of_filter in Hk as [Hno Hk].
    split; [|exact Hno]. apply elem_of_elements. exact Hk.
Qed.

Lemma dom_dummy_inputs (vars : list string) (k : string) :
  k ∈ dom (list_to_map ((λ v, (v, "foo")) <$> vars) : gmap string string)
  ↔ k ∈ vars.
Proof.
  rewrite dom_list_to_map_L, elem_of_list_to_set, <- list_fmap_compose.
  simpl. rewrite list_fmap_id. reflexivity.
Qed.

Lemma check_valid_template_cases (template : string) (vars : list string) :
  (check_valid_template template vars = Ok tt ∧ well_declared template vars)
  ∨ (∃ msg, check_valid_template template vars = Raise (TemplateError msg)
            ∧ ¬ well_declared template vars).
Proof.
  unfold check_valid_template, vformat, well_declared.
  destruct (parse template) as [ps|] eqn:Hparse.
  - set (dummy := list_to_map ((λ v, (v, "foo")) <$> vars) : gmap string string).
    destruct (render_cases dummy ps) as [(text & -> & Hall)|(n & -> & Hin & Hnone)]; simpl.
    + destruct (check_unused_args_cases (slots ps) dummy)
        as [[-> Hused]|(ks & k & -> & Hk & Hno)]; simpl.
      * left. split; [reflexivity|]. exists ps. split; [reflexivity|].
        intros n. split.
        -- intros Hn. apply dom_dummy_inputs. apply elem_of_dom. auto.
        -- intros Hn. apply Hused. apply dom_dummy_inputs. exact Hn.
      * right. eexists. split; [reflexivity|].
        intros (ps' & Hps' & Hiff). injection Hps' as <-.
        apply Hno. apply Hiff. apply dom_dummy_inputs. exact Hk.
    + right. eexists. split; [reflexivity|].
      intros (ps' & Hps' & Hiff). injection Hps' as <-.
      apply Hiff, dom_dummy_inputs, elem_of_dom in Hin.
      destruct Hin as [v Hv]. change (dummy !! n = Some v) in Hv. congruence.
  - right. eexists. split; [reflexivity|].
    intros (ps' & Hps' & _). discriminate.
Qed.

Lemma validated_cases (p : PromptTemplate) :
  let vars := (input_variables p ++ elements (dom (partial_variables p)))%list in
  (PromptTemplate_validated p = Ok p ∧ well_declared (template p) vars)
  ∨ (∃ msg, PromptTemplate_validated p = Raise (TemplateError msg)
            ∧ ¬ well_declared (template p) vars).
Proof.
  intros vars. unfold PromptTemplate_validated. fold vars.
  destruct (check_valid_template_cases (template p) vars)
    as [[-> Hwd]|(msg & -> & Hno)]; simpl.
  - left. split; [reflexivity|exact Hwd].
  - right. exists msg. split; [reflexivity|exact Hno].
Qed.

Lemma elements_dom_context (c : string) :
  elements (dom ({[ "context" := c ]} : gmap string string)) = ["context"].
Proof. rewrite dom_singleton_L. apply elements_singleton. Qed.

(** [get_prompt] either returns the template with [context] bound and
    [question] left, or fails validation; which of the two is decided by
    the fields of the template text alone. *)
Lemma get_prompt_cases (t c : string) :
  (get_prompt t c = Ok {| template := t;
                          input_variables := ["question"];
                          partial_variables := {[ "context" := c ]} |}
   ∧ well_declared t ["question"; "context"])
  ∨ (∃ msg, get_prompt t c = Raise (TemplateError msg)
            ∧ ¬ well_declared t ["question"; "context"]).
Proof.
  unfold get_prompt, PromptTemplate_new.
  destruct (validated_cases {| template := t;
                               input_variables := ["question"; "context"];
                               partial_variables := ∅ |})
    as [[-> Hwd]|(msg & -> & Hno)]; simpl in *;
    rewrite dom_empty_L, elements_empty in *; simpl in *.
  - left. split; [|exact Hwd].
    unfold partial. simpl.
    rewrite elements_dom_context, (right_id_L ∅ (∪)).
    change (filter (λ v, v ∉ ["context"]) ["question"; "context"])
      with ["question"].
    destruct (validated_cases {| template := t;
                                 input_variables := ["question"];
                                 partial_variables := {[ "context" := c ]} |})
      as [[-> _]|(msg & _ & Hno)]; simpl in *.
    + reflexivity.
    + rewrite elements_dom_context in Hno. contradiction.
  - right. exists msg. split; [reflexivity|exact Hno].
Qed.

Lemma PromptTemplate_new_cases (t : string) (vars : list string) :
  (PromptTemplate_new t vars
   = Ok {| template := t; input_variables := vars; partial_variables := ∅ |}
   ∧ well_declared t vars)
  ∨ (∃ msg, PromptTemplate_new t vars = Raise (TemplateError msg)
            ∧ ¬ well_declared t vars).
Proof.
  unfold PromptTemplate_new.
  destruct (validated_cases {| template := t;
                               input_variables := vars;
                               partial_variables := ∅ |})
    as [[-> Hwd]|(msg & -> & Hno)]; simpl in *;
    rewrite dom_empty_L, elements_empty, app_nil_r in *.
  - left. split; [reflexivity|exact Hwd].
  - right. exists msg. split; [reflexivity|exact Hno].
Qed.

Lemma elem_of_question_context (n : string) :
  n ∈ ["question"; "context"] ↔ n = "question" ∨ n = "context".
Proof. rewrite !elem_of_cons, elem_of_nil. tauto. Qed.

(** ** get_prompt *)

(** C9: [get_prompt] declares the two input variables [question] and
    [context] whatever the template text is, and binds [context] only; so
    every template it returns has [question] as its single free variable,
    [context] bound to the given string, and the template text unchanged. *)
Theorem get_prompt_leaves_only_question_free :
  ∀ (t c : string) (p : PromptTemplate),
    get_prompt t c = Ok p →
    get_prompt t c
    = (prompt ← PromptTemplate_new t ["question"; "context"];
       partial prompt {[ "context" := c ]})
    ∧ template p = t
    ∧ input_variables p = ["question"]
    ∧ partial_variables p = {[ "context" := c ]}.
Proof.
  intros t c p Hp. split.
  - unfold get_prompt.
    destruct (PromptTemplate_new t ["question"; "context"]) as [p0|e]; simpl;
      [|reflexivity].
    destruct (partial p0 {[ "context" := c ]}); reflexivity.
  - destruct (get_prompt_cases t c) as [[Hok _]|(msg & Hraise & _)].
    + rewrite Hok in Hp. injection Hp as <-. auto.
    + rewrite Hraise in Hp. discriminate.
Qed.

Lemma get_prompt_leaves_only_question_free_witness :
  get_prompt "Q: {question} CTX: {context}" "paris is the capital"
  = Ok {| template := "Q: {question} CTX: {context}";
          input_variables := ["question"];
          partial_variables := {[ "context" := "paris is the capital" ]} |}
  ∧ input_variables
      {| template := "Q: {question} CTX: {context}";
         input_variables := ["question"];
         partial_variables := {[ "context" := "paris is the capital" ]} |}
    = ["question"].
Proof.
  assert (Hp : get_prompt "Q: {question} CTX: {context}" "paris is the capital"
               = Ok {| template := "Q: {question} CTX: {context}";
                       input_variables := ["question"];
                       partial_variables :=
                         {[ "context" := "paris is the capital" ]} |})
    by (vm_compute; reflexivity).
  split; [exact Hp|].
  exact (proj1 (proj2 (proj2
    (get_prompt_leaves_only_question_free _ _ _ Hp)))).
Defined.

(** C4: a template text that does not declare both slots, because it names
    no [question] field, or no [context] field, or is malformed, makes
    [get_prompt] fail with a template error; no template is returned. *)
Theorem get_prompt_rejects_missing_slot :
  ∀ (t c : string),
    declares_both t = false →
    ∃ msg, get_prompt t c = Raise (TemplateError msg).
Proof.
  intros t c Hmissing.
  destruct (get_prompt_cases t c) as [[_ Hwd]|(msg & Hraise & _)].
  - exfalso. destruct Hwd as (ps & Hparse & Hiff).
    unfold declares_both in Hmissing. rewrite Hparse in Hmissing.
    rewrite !bool_decide_eq_true_2 in Hmissing; [discriminate| |];
      apply Hiff, elem_of_question_context; auto.
  - exists msg. exact Hraise.
Qed.

Lemma get_prompt_rejects_missing_slot_witness :
  declares_both "Q: {question}" = false
  ∧ ∃ msg, get_prompt "Q: {question}" "paris is the capital"
           = Raise (TemplateError msg).
Proof.
  split; [reflexivity|].
  apply (get_prompt_rejects_missing_slot "Q: {question}" "paris is the capital").
  reflexivity.
Defined.

(** ** Loading a file-backed model *)

(** C6: when no model file exists at the path, [get_gpt4all] over the
    file-backed constructor fails with the load error, returns no handle,
    and leaves the world (files, service, standard output) as it was,
    whatever the backend kind and the streaming flag are. *)
Theorem createFileBackedModel_missing_file :
  ∀ (path kind : string) (streaming : bool) (w : World),
    files w !! path = None →
    createFileBackedModel path kind streaming w
    = (Raise (ModelLoadError path), w)
    ∧ ∀ h w', createFileBackedModel path kind streaming w ≠ (Ok h, w').
Proof.
  intros path kind streaming w Hmissing.
  assert (Hfail : createFileBackedModel path kind streaming w
                  = (Raise (ModelLoadError path), w)).
  { unfold createFileBackedModel, get_gpt4all. rewrite bind_ret_r.
    unfold GPT4All_load. simpl. rewrite Hmissing. reflexivity. }
  split; [exact Hfail|].
  intros h w'. rewrite Hfail. discriminate.
Qed.

Lemma createFileBackedModel_missing_file_witness :
  createFileBackedModel "models/none.bin" "gptj" true empty_world
  = (Raise (ModelLoadError "models/none.bin"), empty_world).
Proof.
  apply (createFileBackedModel_missing_file "models/none.bin" "gptj" true
           empty_world).
  reflexivity.
Defined.

(** ** Streaming *)

(** The text a run accumulates from its tokens. *)
Lemma accumulate_silent (tokens : list string) :
  ∀ (text : string) (w : World),
    accumulate [] tokens text w
    = (Ok (foldl (λ acc token, acc +:+ token) text tokens), w).
Proof.
  induction tokens as [|token rest IH]; intros text w; simpl.
  - reflexivity.
  - unfold mbind, M_bind. simpl. apply IH.
Qed.

Lemma accumulate_streaming (h : CallbackHandler) (tokens : list string) :
  ∀ (text : string) (w : World),
    accumulate [h] tokens text w
    = (Ok (foldl (λ acc token, acc +:+ token) text tokens),
       {| files := files w;
          service := service w;
          stdout := stdout w ++ tokens |}).
Proof.
  induction tokens as [|token rest IH]; intros text w; simpl.
  - rewrite app_nil_r. destruct w; reflexivity.
  - unfold mbind, M_bind. simpl. rewrite IH. simpl.
    rewrite <- app_assoc. reflexivity.
Qed.

Lemma run_generation_silent (g : generation) (w : World) :
  run_generation [] g w
  = (match failure g with
     | Some msg => Raise (GenerationError msg)
     | None => Ok (foldl (λ acc token, acc +:+ token) EmptyString (produced g))
     end, w).
Proof.
  unfold run_generation, mbind, M_bind. rewrite accumulate_silent.
  destruct (failure g); reflexivity.
Qed.

Lemma run_generation_streaming (h : CallbackHandler) (g : generation) (w : World) :
  run_generation [h] g w
  = (match failure g with
     | Some msg => Raise (GenerationError msg)
     | None => Ok (foldl (λ acc token, acc +:+ token) EmptyString (produced g))
     end,
     {| files := files w;
        service := service w;
        stdout := stdout w ++ produced g |}).
Proof.
  unfold run_generation, mbind, M_bind. rewrite accumulate_streaming.
  destruct (failure g); reflexivity.
Qed.

Lemma bind_unfold {A B : Type} (m : M A) (f : A → M B) (w : World) :
  (a ← m; f a) w
  = match m w with
    | (Ok a, w') => f a w'
    | (Raise e, w') => (Raise e, w')
    end.
Proof. reflexivity. Qed.

Lemma createFileBackedModel_eq (path kind : string) (streaming : bool) (w : World) :
  createFileBackedModel path kind streaming w
  = if loadable w path
    then (Ok {| GPT4All.model := path;
                GPT4All.backend := kind;
                GPT4All.callbacks :=
                  if streaming then Some [StreamingStdOutCallbackHandler]
                  else None |}, w)
    else (Raise (ModelLoadError path), w).
Proof.
  unfold createFileBackedModel, get_gpt4all, loadable. rewrite bind_ret_r.
  unfold GPT4All_load. cbn [GPT4All.model].
  destruct (files w !! path) as [[|]|]; reflexivity.
Qed.

Lemma createNamedServiceModel_eq (name : string) (streaming : bool) (w : World) :
  createNamedServiceModel name streaming w
  = if served w name
    then (Ok {| Ollama.model := name;
                Ollama.callback_manager :=
                  if streaming
                  then Some {| handlers := [StreamingStdOutCallbackHandler] |}
                  else None |}, w)
    else (Raise (match service w with
                 | Some _ => ModelNotFoundError name
                 | None => ServiceUnavailableError
                 end), w).
Proof.
  unfold createNamedServiceModel, get_ollama, served, Ollama_connect.
  cbn [Ollama.model].
  destruct (service w) as [known|]; [|reflexivity].
  destruct (bool_decide (name ∈ known)); reflexivity.
Qed.

(** C5: for the same path and backend kind (or the same service model
    name), the same question and the same world, building the handle with
    streaming on or off gives the same outcome: the same final text, or the
    same error. Without streaming the world is left as it was; with
    streaming the only change is that the produced tokens are appended to
    standard output, when the handle could be built. *)
Theorem streaming_only_adds_a_side_channel :
  ∀ (file_model : string → string → string → generation)
    (service_model : string → string → generation)
    (path kind name question : string) (w : World),
    let streamed := ask_file_backed file_model path kind true question w in
    let plain := ask_file_backed file_model path kind false question w in
    let streamed_s := ask_named_service service_model name true question w in
    let plain_s := ask_named_service service_model name false question w in
    (streamed.1 = plain.1
     ∧ plain.2 = w
     ∧ files streamed.2 = files w
     ∧ service streamed.2 = service w
     ∧ stdout streamed.2
       = (stdout w ++ (if loadable w path
                       then produced (file_model path kind question)
                       else []))%list)
    ∧ (streamed_s.1 = plain_s.1
       ∧ plain_s.2 = w
       ∧ files streamed_s.2 = files w
       ∧ service streamed_s.2 = service w
       ∧ stdout streamed_s.2
         = (stdout w ++ (if served w name
                         then produced (service_model name question)
                         else []))%list).
Proof.
  intros file_model service_model path kind name question w. cbv zeta.
  split.
  - unfold ask_file_backed. rewrite !bind_unfold, !createFileBackedModel_eq.
    destruct (loadable w path).
    + unfold GPT4All_generate.
      cbn [GPT4All.model GPT4All.backend GPT4All.callbacks from_option id].
      rewrite run_generation_silent, run_generation_streaming. auto.
    + cbn. rewrite app_nil_r. auto.
  - unfold ask_named_service. rewrite !bind_unfold, !createNamedServiceModel_eq.
    destruct (served w name).
    + unfold Ollama_generate.
      cbn [Ollama.model Ollama.callback_manager fmap option_fmap option_map
           from_option id handlers].
      rewrite run_generation_silent, run_generation_streaming. auto.
    + cbn. rewrite app_nil_r. auto.
Qed.


(** * Further properties of the gateway *)

(** ** get_mistral: every call shape *)

(** X1: no call of [get_mistral], with no argument, with positional
    arguments or with keyword arguments, returns a handle or changes the
    world, and the backend constructor is never reached: the outcome is the
    same error whatever constructor is plugged in. *)
Theorem get_mistral_never_reaches_the_backend :
  ∀ (Mistral : Type) (from_pretrained other : call_site arg → M Mistral)
    (args : list arg) (kwargs : list (string * arg)) (w : World),
    get_mistral_applied from_pretrained args kwargs w
    = get_mistral_applied other args kwargs w
    ∧ ∃ e, get_mistral_applied from_pretrained args kwargs w = (Raise e, w).
Proof.
  intros Mistral from_pretrained other args kwargs w.
  unfold get_mistral_applied. rewrite get_mistral_site_repeats_config.
  split; [reflexivity|]. eexists. reflexivity.
Qed.

(** ** get_prompt: what decides its outcome *)

Lemma get_prompt_by_construction (t c : string) :
  get_prompt t c
  = match PromptTemplate_new t ["question"; "context"] with
    | Ok _ => Ok {| template := t;
                    input_variables := ["question"];
                    partial_variables := {[ "context" := c ]} |}
    | Raise e => Raise e
    end.
Proof.
  destruct (PromptTemplate_new_cases t ["question"; "context"])
    as [[Hnew Hwd]|(msg & Hnew & Hno)].
  - rewrite Hnew.
    destruct (get_prompt_cases t c) as [[Hok _]|(msg & _ & Hno)];
      [exact Hok|contradiction].
  - unfold get_prompt. rewrite Hnew. reflexivity.
Qed.

(** X2: whether [get_prompt] succeeds, and the error it raises when it does
    not, depend on the template text alone. The context string is stored as
    a value and never scanned, so two contexts, whatever characters they
    hold, give the same error or both give a template. *)
Theorem get_prompt_outcome_ignores_the_context :
  ∀ (t c1 c2 : string),
    (∀ e, get_prompt t c1 = Raise e ↔ get_prompt t c2 = Raise e)
    ∧ ((∃ p, get_prompt t c1 = Ok p) ↔ (∃ p, get_prompt t c2 = Ok p)).
Proof.
  intros t c1 c2. rewrite !get_prompt_by_construction.
  destruct (PromptTemplate_new t ["question"; "context"]) as [p0|e0].
  - split.
    + intros e. split; discriminate.
    + split; intros _; eexists; reflexivity.
  - split.
    + intros e. reflexivity.
    + split; intros [p Hp]; discriminate.
Qed.
